(** * slip39_dart: the platform registration shims

    The repository's native side consists of
    - [windows/slip39_dart_plugin_c_api.cpp]: the C entry point
      [Slip39DartPluginCApiRegisterWithRegistrar], the only function with a
      body among the sources;
    - [windows/slip39_dart_plugin.h]: the declaration of the class
      [slip39_dart::Slip39DartPlugin];
    - [linux/include/slip39_dart/slip39_dart_plugin.h]: the declarations of
      [slip39_dart_plugin_get_type] and
      [slip39_dart_plugin_register_with_registrar].

    The code is glue around calls into the Flutter embedder.  A function is
    embedded as a finite tree of calls ([Prog]); the embedder is a parameter
    (a [Host]) that answers each call, may fail, and owns all the state. *)

From Stdlib Require Import ZArith String List Lia.
From stdpp Require Import base option list gmap.

Set Default Proof Using "Type".

Local Open Scope Z_scope.

(* ===================================================================== *)
(** * Programs over an interface of external calls                       *)
(* ===================================================================== *)

Module Call.

(** A C++ function body that only calls out: it returns, throws an exception of
    its own, or performs the call [e] and continues with its answer. *)
Inductive Prog (E : Type -> Type) (A : Type) : Type :=
| Ret (a : A)
| Throw (what : string)
| Vis (X : Type) (e : E X) (k : X -> Prog E A).

Arguments Ret {E A} a.
Arguments Throw {E A} what.
Arguments Vis {E A X} e k.

Definition call {E : Type -> Type} {X : Type} (e : E X) : Prog E X := Vis e Ret.

Fixpoint bind {E : Type -> Type} {A B : Type}
    (p : Prog E A) (f : A -> Prog E B) : Prog E B :=
  match p with
  | Ret a => f a
  | Throw what => Throw what
  | Vis e k => Vis e (fun x => bind (k x) f)
  end.

#[global] Instance Prog_ret {E : Type -> Type} : MRet (Prog E) :=
  fun A a => Ret a.
#[global] Instance Prog_bind {E : Type -> Type} : MBind (Prog E) :=
  fun A B f p => bind p f.

(** Replaces each call of interface [E] by a program over interface [F]: the
    callee's body is linked in. *)
Fixpoint link {E F : Type -> Type} {A : Type}
    (body : forall X, E X -> Prog F X) (p : Prog E A) : Prog F A :=
  match p with
  | Ret a => Ret a
  | Throw what => Throw what
  | Vis e k => bind (body _ e) (fun x => link body (k x))
  end.

(** One entry of a trace: a call that was made. *)
Inductive Invocation (E : Type -> Type) : Type :=
| Invoke (X : Type) (e : E X).

Arguments Invoke {E X} e.

(** How the host answers one call: it returns [x], or it fails with [err] in
    its own convention (an exception of the framework, an abort).  Either way
    it may have changed its state. *)
Inductive Answer (W Err X : Type) : Type :=
| Answered (x : X) (w : W)
| Failing (err : Err) (w : W).

Arguments Answered {W Err X} x w.
Arguments Failing {W Err X} err w.

(** How a function ends: it returns [x]; a call it made failed in the host
    with [err]; or the function itself threw. *)
Inductive Outcome (W Err X : Type) : Type :=
| Returned (x : X) (w : W)
| HostFailed (err : Err) (w : W)
| Thrown (what : string) (w : W).

Arguments Returned {W Err X} x w.
Arguments HostFailed {W Err X} err w.
Arguments Thrown {W Err X} what w.

Definition world_after {W Err X : Type} (o : Outcome W Err X) : W :=
  match o with
  | Returned _ w => w
  | HostFailed _ w => w
  | Thrown _ w => w
  end.

Definition answer_world {W Err X : Type} (a : Answer W Err X) : W :=
  match a with
  | Answered _ w => w
  | Failing _ w => w
  end.

Definition returned {W Err X : Type} (o : Outcome W Err X) : bool :=
  match o with
  | Returned _ _ => true
  | _ => false
  end.

(** A host answers every call of the interface from its state [W]. *)
Definition Host (W Err : Type) (E : Type -> Type) : Type :=
  forall X, E X -> W -> Answer W Err X.

(** Runs [p] against [host] from world [w]: the calls made, in order, and the
    outcome.  A failing call ends the run with the host's failure: the sources
    contain no handler that would catch it. *)
Fixpoint run {W Err : Type} {E : Type -> Type} {A : Type}
    (host : Host W Err E) (p : Prog E A) (w : W)
    : list (Invocation E) * Outcome W Err A :=
  match p with
  | Ret a => ([], Returned a w)
  | Throw what => ([], Thrown what w)
  | Vis e k =>
      match host _ e w with
      | Answered x w' =>
          let r := run host (k x) w' in (Invoke e :: r.1, r.2)
      | Failing err w' => ([Invoke e], HostFailed err w')
      end
  end.

Definition trace_of {W Err : Type} {E : Type -> Type} {A : Type}
    (host : Host W Err E) (p : Prog E A) (w : W) : list (Invocation E) :=
  (run host p w).1.

Definition outcome_of {W Err : Type} {E : Type -> Type} {A : Type}
    (host : Host W Err E) (p : Prog E A) (w : W) : Outcome W Err A :=
  (run host p w).2.

(** The host's answer as the outcome of a function that ends with that call. *)
Definition answer_outcome {W Err X : Type} (a : Answer W Err X)
    : Outcome W Err X :=
  match a with
  | Answered x w => Returned x w
  | Failing err w => HostFailed err w
  end.

(** ** Hosts as relations

    A host whose answer is not a function of its visible state (it may answer
    in several ways, or not at all) is a relation between a call, the state
    before, and an answer. *)
Definition HostRel (W Err : Type) (E : Type -> Type) : Type :=
  forall X, E X -> W -> Answer W Err X -> Prop.

Fixpoint exec {W Err : Type} {E : Type -> Type} {A : Type}
    (H : HostRel W Err E) (p : Prog E A) (w : W)
    (t : list (Invocation E)) (o : Outcome W Err A) : Prop :=
  match p with
  | Ret a => t = [] /\ o = Returned a w
  | Throw what => t = [] /\ o = Thrown what w
  | Vis e k =>
      (exists x w' t',
          H _ e w (Answered x w') /\ t = Invoke e :: t' /\ exec H (k x) w' t' o)
      \/ (exists err w',
          H _ e w (Failing err w') /\ t = [Invoke e] /\ o = HostFailed err w')
  end.

(** The relation of a host that is a function. *)
Definition graph {W Err : Type} {E : Type -> Type} (host : Host W Err E)
    : HostRel W Err E :=
  fun X e w a => host X e w = a.

(** The same call in the same state has one answer. *)
Definition deterministic {W Err : Type} {E : Type -> Type}
    (H : HostRel W Err E) : Prop :=
  forall X (e : E X) w a1 a2, H X e w a1 -> H X e w a2 -> a1 = a2.

(** Every call comes back, with a value or with a failure. *)
Definition responsive {W Err : Type} {E : Type -> Type}
    (H : HostRel W Err E) : Prop :=
  forall X (e : E X) w, exists a, H X e w a.

(** ** Shape of a program *)

(** [p] makes exactly [n] calls whatever the answers are, and then returns:
    no branch, no loop, no exception of its own. *)
Fixpoint straight_line {E : Type -> Type} {A : Type}
    (n : nat) (p : Prog E A) : Prop :=
  match p, n with
  | Ret _, O => True
  | Vis _ k, S n' => forall x, straight_line n' (k x)
  | _, _ => False
  end.

(** ** Two interfaces side by side *)

Variant sumE (E F : Type -> Type) (X : Type) : Type :=
| inlE (e : E X)
| inrE (f : F X).

Arguments inlE {E F X} e.
Arguments inrE {E F X} f.

(** Renames the calls of a program into a larger interface. *)
Fixpoint translate {E F : Type -> Type} {A : Type}
    (h : forall X, E X -> F X) (p : Prog E A) : Prog F A :=
  match p with
  | Ret a => Ret a
  | Throw what => Throw what
  | Vis e k => Vis (h _ e) (fun x => translate h (k x))
  end.

Definition count {A : Type} (f : A -> bool) (l : list A) : nat :=
  length (List.filter f l).

End Call.

Import Call.

(* ===================================================================== *)
(** * windows/slip39_dart_plugin_c_api.cpp                               *)
(* ===================================================================== *)

(** [FlutterDesktopPluginRegistrarRef]: an opaque pointer handed in by the
    embedder.  Address 0 is the null pointer. *)
Record FlutterDesktopPluginRegistrarRef : Type :=
  RegistrarRef { registrar_addr : Z }.

Definition null_registrar : FlutterDesktopPluginRegistrarRef := RegistrarRef 0.

(** [flutter::PluginRegistrarManager*], as returned by [GetInstance()]. *)
Record PluginRegistrarManager_ptr : Type :=
  ManagerPtr { manager_addr : Z }.

(** [flutter::PluginRegistrarWindows*], as returned by
    [GetRegistrar<flutter::PluginRegistrarWindows>]. *)
Record PluginRegistrarWindows_ptr : Type :=
  WindowsRegistrarPtr { windows_registrar_addr : Z }.

#[global] Instance FlutterDesktopPluginRegistrarRef_eq_dec :
  EqDecision FlutterDesktopPluginRegistrarRef.
Proof. solve_decision. Defined.
#[global] Instance PluginRegistrarManager_ptr_eq_dec :
  EqDecision PluginRegistrarManager_ptr.
Proof. solve_decision. Defined.
#[global] Instance PluginRegistrarWindows_ptr_eq_dec :
  EqDecision PluginRegistrarWindows_ptr.
Proof. solve_decision. Defined.

(** The three functions the translation unit calls; none is defined in it.
    [RegisterWithRegistrar] is the static member of
    [slip39_dart::Slip39DartPlugin] declared in [slip39_dart_plugin.h]. *)
Variant capiE : Type -> Type :=
| GetInstance : capiE PluginRegistrarManager_ptr
| GetRegistrar (manager : PluginRegistrarManager_ptr)
    (registrar : FlutterDesktopPluginRegistrarRef)
    : capiE PluginRegistrarWindows_ptr
| RegisterWithRegistrar (registrar : PluginRegistrarWindows_ptr) : capiE unit.

(** <<
    void Slip39DartPluginCApiRegisterWithRegistrar(
        FlutterDesktopPluginRegistrarRef registrar) {
      slip39_dart::Slip39DartPlugin::RegisterWithRegistrar(
          flutter::PluginRegistrarManager::GetInstance()
              ->GetRegistrar<flutter::PluginRegistrarWindows>(registrar));
    }
    >> *)
Definition Slip39DartPluginCApiRegisterWithRegistrar
    (registrar : FlutterDesktopPluginRegistrarRef) : Prog capiE unit :=
  manager ← call GetInstance;
  typed ← call (GetRegistrar manager registrar);
  call (RegisterWithRegistrar typed).

(** ** Observations on traces of the entry point *)

Definition is_GetRegistrar_of (registrar : FlutterDesktopPluginRegistrarRef)
    (i : Invocation capiE) : bool :=
  match i with
  | Invoke e =>
      match e with
      | GetRegistrar _ r => bool_decide (r = registrar)
      | _ => false
      end
  end.

Definition is_RegisterWithRegistrar (i : Invocation capiE) : bool :=
  match i with
  | Invoke e => match e with RegisterWithRegistrar _ => true | _ => false end
  end.

(** The registrar reference a call carries, if any. *)
Definition carried_ref (i : Invocation capiE)
    : option FlutterDesktopPluginRegistrarRef :=
  match i with
  | Invoke e =>
      match e with
      | GetRegistrar _ r => Some r
      | _ => None
      end
  end.

(** The embedder calls the entry point twice with the same reference. *)
Definition register_twice (registrar : FlutterDesktopPluginRegistrarRef)
    : Prog capiE unit :=
  _ ← Slip39DartPluginCApiRegisterWithRegistrar registrar;
  Slip39DartPluginCApiRegisterWithRegistrar registrar.

(* ===================================================================== *)
(** * A test double of the embedder                                      *)
(* ===================================================================== *)

(** The theorems below hold for every host.  To run the entry point on
    concrete inputs a host is needed; this one keeps, like the framework's
    registrar manager, one wrapper per registrar reference, refuses the null
    reference, and records every registration it is asked for. *)
Module TestHost.

Inductive Error : Type :=
| NullRegistrar.

Record World : Type := mkWorld {
  registrars_ : gmap Z PluginRegistrarWindows_ptr;
  next_wrapper : Z;
  registered : list PluginRegistrarWindows_ptr;
  unrelated : Z
}.

Definition boot : World :=
  {| registrars_ := ∅; next_wrapper := 4096; registered := []; unrelated := 7 |}.

Definition the_manager : PluginRegistrarManager_ptr := ManagerPtr 64.

Definition get_registrar (registrar : FlutterDesktopPluginRegistrarRef)
    (w : World) : Answer World Error PluginRegistrarWindows_ptr :=
  if registrar_addr registrar =? 0 then Failing NullRegistrar w
  else
    match registrars_ w !! registrar_addr registrar with
    | Some wrapper => Answered wrapper w
    | None =>
        let wrapper := WindowsRegistrarPtr (next_wrapper w) in
        Answered wrapper
          {| registrars_ := <[registrar_addr registrar := wrapper]> (registrars_ w);
             next_wrapper := next_wrapper w + 8;
             registered := registered w;
             unrelated := unrelated w |}
    end.

Definition register_plugin (wrapper : PluginRegistrarWindows_ptr)
    (w : World) : Answer World Error unit :=
  Answered tt
    {| registrars_ := registrars_ w;
       next_wrapper := next_wrapper w;
       registered := wrapper :: registered w;
       unrelated := unrelated w |}.

Definition host : Host World Error capiE :=
  fun X e =>
    match e in capiE X return World -> Answer World Error X with
    | GetInstance => fun w => Answered the_manager w
    | GetRegistrar _ registrar => get_registrar registrar
    | RegisterWithRegistrar wrapper => register_plugin wrapper
    end.

End TestHost.

(* ===================================================================== *)
(** * windows/slip39_dart_plugin.h                                       *)
(* ===================================================================== *)

(** ** The special member functions of [slip39_dart::Slip39DartPlugin] *)

Module Cxx.

Inductive SpecialMember : Type :=
| DefaultConstructor
| CopyConstructor
| CopyAssignment
| MoveConstructor
| MoveAssignment
| Destructor.

(** How a class declares a special member.  [NotDeclared]: the class does not
    name it and the language does not supply it either. *)
Inductive Declaration : Type :=
| Provided
| Deleted
| NotDeclared.

Definition ClassDecl : Type := SpecialMember -> Declaration.

#[global] Instance SpecialMember_eq_dec : EqDecision SpecialMember.
Proof. solve_decision. Defined.
#[global] Instance Declaration_eq_dec : EqDecision Declaration.
Proof. solve_decision. Defined.

(** An object of the class is known by an identifier it is given when it is
    made and that no later object gets again.  (An identifier is not an
    address: storage that has been freed may be handed out again.) *)
Definition ObjId : Type := positive.

(** The expressions through which client code makes or changes an object. *)
Inductive Op : Type :=
| Construct                        (* T()                 *)
| CopyConstruct (src : ObjId)      (* T b(a)              *)
| MoveConstruct (src : ObjId)      (* T b(std::move(a))   *)
| CopyAssign (dst src : ObjId)     (* b = a               *)
| MoveAssign (dst src : ObjId)     (* b = std::move(a)    *)
| Destroy (obj : ObjId).           (* end of lifetime     *)

(** The member overload resolution selects for [op].  A move expression binds
    to the copy member when the class declares no move member. *)
Definition selected (cls : ClassDecl) (op : Op) : SpecialMember :=
  match op with
  | Construct => DefaultConstructor
  | CopyConstruct _ => CopyConstructor
  | MoveConstruct _ =>
      match cls MoveConstructor with
      | NotDeclared => CopyConstructor
      | _ => MoveConstructor
      end
  | CopyAssign _ _ => CopyAssignment
  | MoveAssign _ _ =>
      match cls MoveAssignment with
      | NotDeclared => CopyAssignment
      | _ => MoveAssignment
      end
  | Destroy _ => Destructor
  end.

(** The compiler accepts [op] when the selected member is provided; a deleted
    or missing one makes the program ill-formed. *)
Definition accepted (cls : ClassDecl) (op : Op) : bool :=
  bool_decide (cls (selected cls op) = Provided).

(** Where the state of a live object comes from. *)
Inductive Origin : Type :=
| FromDefaultConstructor
| FromObject (src : ObjId).

Record Instance : Type := mkInstance {
  origin : Origin;
  (** the objects whose state was assigned into this one, latest first *)
  assigned_from : list ObjId
}.

Record Heap : Type := mkHeap {
  live : gmap ObjId Instance;
  next_obj : ObjId
}.

Definition empty_heap : Heap := {| live := ∅; next_obj := 1%positive |}.

Definition allocate (inst : Instance) (h : Heap) : Heap :=
  {| live := <[next_obj h := inst]> (live h);
     next_obj := Pos.succ (next_obj h) |}.

(** One accepted operation on the heap; [None] when the program is rejected
    or names an object that is not live. *)
Definition step (cls : ClassDecl) (op : Op) (h : Heap) : option Heap :=
  if accepted cls op then
    match op with
    | Construct => Some (allocate (mkInstance FromDefaultConstructor []) h)
    | CopyConstruct src | MoveConstruct src =>
        match live h !! src with
        | Some _ => Some (allocate (mkInstance (FromObject src) []) h)
        | None => None
        end
    | CopyAssign dst src | MoveAssign dst src =>
        match live h !! dst, live h !! src with
        | Some d, Some _ =>
            Some {| live := <[dst := mkInstance (origin d) (src :: assigned_from d)]> (live h);
                    next_obj := next_obj h |}
        | _, _ => None
        end
    | Destroy obj =>
        match live h !! obj with
        | Some _ => Some {| live := delete obj (live h); next_obj := next_obj h |}
        | None => None
        end
    end
  else None.

Fixpoint steps (cls : ClassDecl) (ops : list Op) (h : Heap) : option Heap :=
  match ops with
  | [] => Some h
  | op :: rest =>
      match step cls op h with
      | Some h' => steps cls rest h'
      | None => None
      end
  end.

(** No live object holds state taken from another object. *)
Definition pristine (inst : Instance) : Prop :=
  origin inst = FromDefaultConstructor /\ assigned_from inst = [].

End Cxx.

(** <<
    Slip39DartPlugin();
    virtual ~Slip39DartPlugin();
    // Disallow copy and assign.
    Slip39DartPlugin(const Slip39DartPlugin&) = delete;
    Slip39DartPlugin& operator=(const Slip39DartPlugin&) = delete;
    >>
    The class names no move member, and a class with a user-declared copy
    member or destructor gets none from the language. *)
Definition Slip39DartPlugin_class : Cxx.ClassDecl :=
  fun m =>
    match m with
    | Cxx.DefaultConstructor => Cxx.Provided
    | Cxx.Destructor => Cxx.Provided
    | Cxx.CopyConstructor => Cxx.Deleted
    | Cxx.CopyAssignment => Cxx.Deleted
    | Cxx.MoveConstructor => Cxx.NotDeclared
    | Cxx.MoveAssignment => Cxx.NotDeclared
    end.

(** For contrast: a class that leaves every special member to the language. *)
Definition copyable_class : Cxx.ClassDecl := fun _ => Cxx.Provided.

(** ** [Slip39DartPlugin::RegisterWithRegistrar] *)

(** [slip39_dart::Slip39DartPlugin*] *)
Record Slip39DartPlugin_ptr : Type :=
  PluginPtr { plugin_addr : Z }.

#[global] Instance Slip39DartPlugin_ptr_eq_dec : EqDecision Slip39DartPlugin_ptr.
Proof. solve_decision. Defined.

(** Modelled from the spec: the calls made by the body of
    [Slip39DartPlugin::RegisterWithRegistrar], which lives in
    [slip39_dart_plugin.cpp], a file that is not among the sources.  The spec
    names two actions: a plugin instance is constructed, and it is bound to a
    method channel on the given registrar. *)
Variant pluginE : Type -> Type :=
| Slip39DartPlugin_new : pluginE Slip39DartPlugin_ptr
| BindMethodChannel (registrar : PluginRegistrarWindows_ptr)
    (plugin : Slip39DartPlugin_ptr) : pluginE unit.

(** Modelled from the spec: the body of
    [Slip39DartPlugin::RegisterWithRegistrar] (only its declaration is in
    [slip39_dart_plugin.h]): "constructs a plugin instance and binds it to a
    method channel on the given registrar". *)
Definition RegisterWithRegistrar_body (registrar : PluginRegistrarWindows_ptr)
    : Prog pluginE unit :=
  plugin ← call Slip39DartPlugin_new;
  call (BindMethodChannel registrar plugin).

(** The interface of the whole Windows registration path. *)
Definition windowsE : Type -> Type := sumE capiE pluginE.

(** The linker resolves the call of [RegisterWithRegistrar] to its body; the
    two framework calls stay calls. *)
Definition resolve : forall X, capiE X -> Prog windowsE X :=
  fun X e =>
    match e in capiE X return Prog windowsE X with
    | GetInstance => call (inlE GetInstance)
    | GetRegistrar manager registrar =>
        call (inlE (GetRegistrar manager registrar))
    | RegisterWithRegistrar typed =>
        translate (fun Y (f : pluginE Y) => inrE f)
                  (RegisterWithRegistrar_body typed)
    end.

(** The entry point with the plugin's registration function linked in. *)
Definition windows_registration (registrar : FlutterDesktopPluginRegistrarRef)
    : Prog windowsE unit :=
  link resolve (Slip39DartPluginCApiRegisterWithRegistrar registrar).

Definition is_construction (i : Invocation windowsE) : bool :=
  match i with
  | Invoke e =>
      match e with
      | inrE f => match f with Slip39DartPlugin_new => true | _ => false end
      | inlE _ => false
      end
  end.

Definition is_channel_binding (i : Invocation windowsE) : bool :=
  match i with
  | Invoke e =>
      match e with
      | inrE f => match f with BindMethodChannel _ _ => true | _ => false end
      | inlE _ => false
      end
  end.

(** ** [Slip39DartPlugin::HandleMethodCall] *)

(** [flutter::EncodableValue], as far as a method call needs it. *)
Inductive EncodableValue : Type :=
| EncNull
| EncBool (b : bool)
| EncInt (n : Z)
| EncString (s : string).

(** [flutter::MethodCall<flutter::EncodableValue>] *)
Record MethodCall : Type := mkMethodCall {
  method_name : string;
  arguments : EncodableValue
}.

(** [std::unique_ptr<flutter::MethodResult<flutter::EncodableValue>>]: the
    result sink, known by its address. *)
Record MethodResult_ptr : Type :=
  ResultPtr { result_addr : Z }.

#[global] Instance MethodResult_ptr_eq_dec : EqDecision MethodResult_ptr.
Proof. solve_decision. Defined.

(** What the domain logic makes of a method call: a value, or an error. *)
Inductive DomainResult : Type :=
| DomainValue (value : EncodableValue)
| DomainError (code message : string).

(** The calls a method-call handler can make on its sink: the three members of
    [flutter::MethodResult]. *)
Variant handlerE : Type -> Type :=
| Success (result : MethodResult_ptr) (value : EncodableValue) : handlerE unit
| Error (result : MethodResult_ptr) (code message : string) : handlerE unit
| NotImplemented (result : MethodResult_ptr) : handlerE unit.

(** Modelled from the spec: the body of [Slip39DartPlugin::HandleMethodCall]
    (declared in [slip39_dart_plugin.h], defined in the absent
    [slip39_dart_plugin.cpp]).  The spec: it "receives a method invocation and
    a result sink through which success or error must eventually be signaled
    exactly once"; which method maps to which domain operation is left to "an
    external, unshown collaborator", here the parameter [domain], which says
    for each method call whether it ends in a value or in an error. *)
Definition HandleMethodCall (domain : MethodCall -> DomainResult)
    (method_call : MethodCall) (result : MethodResult_ptr)
    : Prog handlerE unit :=
  match domain method_call with
  | DomainValue value => call (Success result value)
  | DomainError code message => call (Error result code message)
  end.




(* ===================================================================== *)
(** * linux/include/slip39_dart/slip39_dart_plugin.h                     *)
(* ===================================================================== *)

(** [FlPluginRegistrar*] *)
Record FlPluginRegistrar_ptr : Type :=
  FlRegistrarPtr { fl_registrar_addr : Z }.

(** [GType] *)
Record GType : Type := mkGType { gtype_id : Z }.

(** [Slip39DartPlugin*], the GObject instance. *)
Record Slip39DartPluginObject_ptr : Type :=
  ObjectPtr { object_addr : Z }.

#[global] Instance FlPluginRegistrar_ptr_eq_dec : EqDecision FlPluginRegistrar_ptr.
Proof. solve_decision. Defined.
#[global] Instance GType_eq_dec : EqDecision GType.
Proof. solve_decision. Defined.

(** Modelled from the spec: the calls into GLib and the Flutter Linux embedder
    that the two functions declared in the header make; their bodies are in a
    file that is not among the sources.  The spec speaks of a "GObject-derived
    plugin type" that ends up "registered", and of a registration that "succeeds
    via the host framework". *)
Variant linuxE : Type -> Type :=
| TypeRegister (name : string) : linuxE GType
| ObjectNew (type : GType) : linuxE Slip39DartPluginObject_ptr
| SetMethodCallHandler (registrar : FlPluginRegistrar_ptr)
    (plugin : Slip39DartPluginObject_ptr) : linuxE unit.

(** The function-local static of the type-identification function: the type
    id once the type has been registered. *)
Definition Statics : Type := option GType.

Definition plugin_type_name : string := "Slip39DartPlugin".

(** Modelled from the spec: the body of [slip39_dart_plugin_get_type], the
    "type-identification function" (declared at line 19 of the header, defined
    elsewhere).  It registers the plugin type with the type system the first
    time it is asked and answers the same id from then on, which is what
    "registered exactly once" asks of it. *)
Definition slip39_dart_plugin_get_type (statics : Statics)
    : Prog linuxE (GType * Statics) :=
  match statics with
  | Some type => mret (type, statics)
  | None =>
      type ← call (TypeRegister plugin_type_name);
      mret (type, Some type)
  end.

(** Modelled from the spec: the body of
    [slip39_dart_plugin_register_with_registrar] (declared at lines 21-22 of
    the header, defined elsewhere): "a registration function taking a
    registrar handle", with "no preconditions, no computed result, no error
    path"; it makes an object of the plugin type and hands it to the
    registrar. *)
Definition slip39_dart_plugin_register_with_registrar
    (registrar : FlPluginRegistrar_ptr) (statics : Statics)
    : Prog linuxE (unit * Statics) :=
  '(type, statics') ← slip39_dart_plugin_get_type statics;
  plugin ← call (ObjectNew type);
  _ ← call (SetMethodCallHandler registrar plugin);
  mret (tt, statics').

Definition is_type_registration (i : Invocation linuxE) : bool :=
  match i with
  | Invoke e =>
      match e with
      | TypeRegister name => bool_decide (name = plugin_type_name)
      | _ => false
      end
  end.

(** The registrar a call carries, if any. *)
Definition carried_registrar {X : Type} (e : linuxE X)
    : option FlPluginRegistrar_ptr :=
  match e with
  | SetMethodCallHandler registrar _ => Some registrar
  | _ => None
  end.

(** The host works with [registrar]: it answers every call that carries this
    registrar, and every call that carries none. *)
Definition valid_registrar {W Err : Type} (host : Host W Err linuxE)
    (registrar : FlPluginRegistrar_ptr) : Prop :=
  forall X (e : linuxE X) w,
    carried_registrar e = None \/ carried_registrar e = Some registrar ->
    exists x w', host X e w = Answered x w'.

(** The static agrees with the registrations made so far. *)
Definition statics_consistent (statics : Statics)
    (past : list (Invocation linuxE)) : Prop :=
  match statics with
  | None => count is_type_registration past = 0%nat
  | Some _ => count is_type_registration past = 1%nat
  end.

(* ===================================================================== *)
(** * Test doubles for the other interfaces                              *)
(* ===================================================================== *)

Module TestWindows.

(** The embedder of [TestHost] together with a log of the plugin objects made
    and of the channel bindings. *)
Record World : Type := mkWorld {
  embedder : TestHost.World;
  plugins : list Slip39DartPlugin_ptr;
  bindings : list (PluginRegistrarWindows_ptr * Slip39DartPlugin_ptr)
}.

Definition boot : World :=
  {| embedder := TestHost.boot; plugins := []; bindings := [] |}.

Definition lift_answer {X : Type} (w : World)
    (a : Answer TestHost.World TestHost.Error X)
    : Answer World TestHost.Error X :=
  match a with
  | Answered x e =>
      Answered x {| embedder := e; plugins := plugins w; bindings := bindings w |}
  | Failing err e =>
      Failing err {| embedder := e; plugins := plugins w; bindings := bindings w |}
  end.

Definition plugin_host : Host World TestHost.Error pluginE :=
  fun X f =>
    match f in pluginE X return World -> Answer World TestHost.Error X with
    | Slip39DartPlugin_new => fun w =>
        let plugin := PluginPtr (8192 + Z.of_nat (length (plugins w))) in
        Answered plugin
          {| embedder := embedder w;
             plugins := plugin :: plugins w;
             bindings := bindings w |}
    | BindMethodChannel registrar plugin => fun w =>
        Answered tt
          {| embedder := embedder w;
             plugins := plugins w;
             bindings := (registrar, plugin) :: bindings w |}
    end.

Definition host : Host World TestHost.Error windowsE :=
  fun X e w =>
    match e with
    | inlE c => lift_answer w (TestHost.host X c (embedder w))
    | inrE f => plugin_host X f w
    end.

End TestWindows.

Module TestHandler.

(** What a sink has been told. *)
Inductive Signal : Type :=
| SignalSuccess (value : EncodableValue)
| SignalError (code message : string)
| SignalNotImplemented.

Definition World : Type := list (MethodResult_ptr * Signal).

(** A domain logic that knows one method. *)
Definition domain (method_call : MethodCall) : DomainResult :=
  if String.eqb (method_name method_call) "getPlatformVersion"
  then DomainValue (EncString "Windows 10+")
  else DomainError "UNKNOWN_METHOD" (method_name method_call).

Definition host : Host World unit handlerE :=
  fun X e =>
    match e in handlerE X return World -> Answer World unit X with
    | Success result value => fun w =>
        Answered tt ((result, SignalSuccess value) :: w)
    | Error result code message => fun w =>
        Answered tt ((result, SignalError code message) :: w)
    | NotImplemented result => fun w =>
        Answered tt ((result, SignalNotImplemented) :: w)
    end.

Definition the_call : MethodCall :=
  {| method_name := "getPlatformVersion"; arguments := EncNull |}.

Definition the_sink : MethodResult_ptr := ResultPtr 512.

End TestHandler.

Module TestLinux.

Inductive Error : Type :=
| NullRegistrar.

Record World : Type := mkWorld {
  type_registry : list string;
  objects : nat;
  handlers : list (FlPluginRegistrar_ptr * Slip39DartPluginObject_ptr)
}.

Definition boot : World :=
  {| type_registry := []; objects := 0; handlers := [] |}.

(** Refuses only the null registrar. *)
Definition host : Host World Error linuxE :=
  fun X e =>
    match e in linuxE X return World -> Answer World Error X with
    | TypeRegister name => fun w =>
        Answered (mkGType (80 + Z.of_nat (length (type_registry w))))
          {| type_registry := name :: type_registry w;
             objects := objects w;
             handlers := handlers w |}
    | ObjectNew _ => fun w =>
        Answered (ObjectPtr (1024 + Z.of_nat (objects w)))
          {| type_registry := type_registry w;
             objects := S (objects w);
             handlers := handlers w |}
    | SetMethodCallHandler registrar plugin => fun w =>
        if fl_registrar_addr registrar =? 0 then Failing NullRegistrar w
        else
          Answered tt
            {| type_registry := type_registry w;
               objects := objects w;
               handlers := (registrar, plugin) :: handlers w |}
    end.

Definition the_registrar : FlPluginRegistrar_ptr := FlRegistrarPtr 256.

End TestLinux.

(* ===================================================================== *)
(** * Further observations on the entry point and on the class           *)
(* ===================================================================== *)

(** The typed registrar a call asks the plugin to register with, if the call
    is a registration. *)
Definition registered_with (i : Invocation capiE)
    : option PluginRegistrarWindows_ptr :=
  match i with
  | Invoke e =>
      match e with
      | RegisterWithRegistrar typed => Some typed
      | _ => None
      end
  end.

(** The embedder calls the entry point once per registrar reference, in the
    order of the list (one reference per engine). *)
Fixpoint register_each (registrars : list FlutterDesktopPluginRegistrarRef)
    : Prog capiE unit :=
  match registrars with
  | [] => mret tt
  | registrar :: rest =>
      _ ← Slip39DartPluginCApiRegisterWithRegistrar registrar;
      register_each rest
  end.

(** [t] is one round per reference, in the order of the list: the instance is
    obtained, the reference is looked up on it, and the plugin is registered
    with the typed registrar that this lookup returned; each call is made in
    the state the call before it left, and [w_end] is the state after the last
    one. *)
Fixpoint rounds_of {W Err : Type} (host : Host W Err capiE)
    (registrars : list FlutterDesktopPluginRegistrarRef) (w : W)
    (t : list (Invocation capiE)) (w_end : W) : Prop :=
  match registrars with
  | [] => t = [] /\ w_end = w
  | registrar :: rest =>
      exists manager w1 typed w2 w3 t',
        host _ GetInstance w = Answered manager w1
        /\ host _ (GetRegistrar manager registrar) w1 = Answered typed w2
        /\ host _ (RegisterWithRegistrar typed) w2 = Answered tt w3
        /\ t = Invoke GetInstance :: Invoke (GetRegistrar manager registrar)
                :: Invoke (RegisterWithRegistrar typed) :: t'
        /\ rounds_of host rest w3 t' w_end
  end.

Module TestFlat.

(** A test double with a single engine: every reference leads to the one
    wrapper, and each registration is counted. *)
Definition the_wrapper : PluginRegistrarWindows_ptr := WindowsRegistrarPtr 4096.

Definition host : Host nat unit capiE :=
  fun X e =>
    match e in capiE X return nat -> Answer nat unit X with
    | GetInstance => fun n => Answered TestHost.the_manager n
    | GetRegistrar _ _ => fun n => Answered the_wrapper n
    | RegisterWithRegistrar _ => fun n => Answered tt (S n)
    end.

End TestFlat.

Definition is_Construct (op : Cxx.Op) : bool :=
  match op with
  | Cxx.Construct => true
  | _ => false
  end.

Definition is_Destroy (op : Cxx.Op) : bool :=
  match op with
  | Cxx.Destroy _ => true
  | _ => false
  end.

(** Every live object has an identifier below the next one to be given. *)
Definition fresh_heap (h : Cxx.Heap) : Prop :=
  forall obj, is_Some (Cxx.live h !! obj) -> (obj < Cxx.next_obj h)%positive.

(* ===================================================================== *)
(** * Facts about running programs                                       *)
(* ===================================================================== *)

Section RunFacts.

Context {W Err : Type} {E : Type -> Type}.

Lemma run_bind {A B : Type} (host : Host W Err E)
    (p : Prog E A) (f : A -> Prog E B) (w : W) :
  run host (bind p f) w =
  match (run host p w).2 with
  | Returned a w' =>
      ((run host p w).1 ++ (run host (f a) w').1, (run host (f a) w').2)
  | HostFailed err w' => ((run host p w).1, HostFailed err w')
  | Thrown what w' => ((run host p w).1, Thrown what w')
  end.
Proof.
  revert w; induction p as [a | what | X e k IH]; intros w; simpl.
  - by destruct (run host (f a) w).
  - reflexivity.
  - destruct (host X e w) as [x w' | err w']; simpl; [| reflexivity].
    rewrite IH. by destruct (run host (k x) w').2.
Qed.

(** An observation of the world that no call of the host changes is not
    changed by any program. *)
Lemma run_frame {A X : Type} (host : Host W Err E) (obs : W -> X)
    (p : Prog E A) (w : W) :
  (forall Y (e : E Y) w0, obs (answer_world (host Y e w0)) = obs w0) ->
  obs (world_after (run host p w).2) = obs w.
Proof.
  intros Hobs. revert w; induction p as [a | what | Y e k IH]; intros w; simpl;
    [reflexivity | reflexivity |].
  specialize (Hobs Y e w).
  destruct (host Y e w) as [x w' | err w']; simpl in *.
  - by rewrite IH.
  - done.
Qed.

(** A host failure reported by a run is the failure of the last call made. *)
Lemma run_host_failed_origin {A : Type} (host : Host W Err E)
    (p : Prog E A) (w : W) (err : Err) (w' : W) :
  (run host p w).2 = HostFailed err w' ->
  exists pre X (e : E X) w0,
    (run host p w).1 = pre ++ [Invoke e] /\ host X e w0 = Failing err w'.
Proof.
  revert w; induction p as [a | what | Y e k IH]; intros w; simpl;
    [discriminate | discriminate |].
  destruct (host Y e w) as [x w1 | err1 w1] eqn:Hcall; simpl.
  - intros Hfail. destruct (IH x w1 Hfail) as (pre & X & e' & w0 & Htr & Hh).
    exists (Invoke e :: pre), X, e', w0. by rewrite Htr.
  - intros [= -> ->]. by exists [], Y, e, w.
Qed.

(** Against a host that is a function, the executions are the run. *)
Lemma exec_graph_run {A : Type} (host : Host W Err E) (p : Prog E A) (w : W)
    (t : list (Invocation E)) (o : Outcome W Err A) :
  exec (graph host) p w t o <-> run host p w = (t, o).
Proof.
  revert w t o; induction p as [a | what | X e k IH]; intros w t o; simpl.
  - split; [by intros [-> ->] | by intros [= <- <-]].
  - split; [by intros [-> ->] | by intros [= <- <-]].
  - unfold graph at 1 2. split.
    + intros [(x & w' & t' & Hh & -> & Hex) | (err & w' & Hh & -> & ->)];
        rewrite Hh; [| reflexivity].
      apply IH in Hex. by rewrite Hex.
    + destruct (host X e w) as [x w' | err w'] eqn:Hh.
      * destruct (run host (k x) w') as [t' o'] eqn:Hrun. simpl.
        intros [= <- <-]. left. exists x, w', t'. repeat split.
        by apply IH.
      * intros [= <- <-]. right. by exists err, w'.
Qed.

(** A program adds no choice of its own: when the host's answers are
    determined by the call and the state, so is the whole execution. *)
Lemma exec_deterministic {A : Type} (H : HostRel W Err E) (p : Prog E A) :
  deterministic H ->
  forall w t1 o1 t2 o2,
    exec H p w t1 o1 -> exec H p w t2 o2 -> t1 = t2 /\ o1 = o2.
Proof.
  intros Hdet. induction p as [a | what | X e k IH]; intros w t1 o1 t2 o2; simpl.
  - by intros [-> ->] [-> ->].
  - by intros [-> ->] [-> ->].
  - intros [(x1 & w1 & t1' & Hh1 & -> & Hex1) | (err1 & w1 & Hh1 & -> & ->)]
           [(x2 & w2 & t2' & Hh2 & -> & Hex2) | (err2 & w2 & Hh2 & -> & ->)].
    + pose proof (Hdet _ _ _ _ _ Hh1 Hh2) as Heq. injection Heq as -> ->.
      destruct (IH _ _ _ _ _ _ Hex1 Hex2) as [-> ->]. done.
    + pose proof (Hdet _ _ _ _ _ Hh1 Hh2) as Heq. discriminate.
    + pose proof (Hdet _ _ _ _ _ Hh1 Hh2) as Heq. discriminate.
    + pose proof (Hdet _ _ _ _ _ Hh1 Hh2) as Heq. by injection Heq as -> ->.
Qed.

(** When every call comes back, every program has an execution. *)
Lemma exec_progress {A : Type} (H : HostRel W Err E) (p : Prog E A) :
  responsive H -> forall w, exists t o, exec H p w t o.
Proof.
  intros Hresp. induction p as [a | what | X e k IH]; intros w; simpl.
  - by eexists _, _.
  - by eexists _, _.
  - destruct (Hresp X e w) as [[x w' | err w'] Hh].
    + destruct (IH x w') as (t & o & Hex).
      exists (Invoke e :: t), o. left. by exists x, w', t.
    + exists [Invoke e], (HostFailed err w'). right. by exists err, w'.
Qed.

(** A straight-line program of [n] calls makes at most [n] calls, exactly [n]
    when it returns, and never throws. *)
Lemma straight_line_exec {A : Type} (H : HostRel W Err E) (n : nat)
    (p : Prog E A) (w : W) (t : list (Invocation E)) (o : Outcome W Err A) :
  straight_line n p -> exec H p w t o ->
  (length t <= n)%nat
  /\ (returned o = true -> length t = n)
  /\ (forall what w', o <> Thrown what w').
Proof.
  revert p w t o; induction n as [| n IH]; intros [a | what | X e k] w t o;
    simpl; try done.
  - by intros _ [-> ->].
  - intros Hsl [(x & w' & t' & _ & -> & Hex) | (err & w' & _ & -> & ->)].
    + destruct (IH _ _ _ _ (Hsl x) Hex) as (Hle & Heq & Hthrow).
      simpl. repeat split; [lia | | done].
      intros Hret. by rewrite (Heq Hret).
    + simpl. repeat split; [lia | done | done].
Qed.

End RunFacts.

(* ===================================================================== *)
(** * The Windows entry point                                            *)
(* ===================================================================== *)

Section CApi.

Context {W Err : Type}.

(** The run of the entry point, case by case on what the host answers. *)
Lemma capi_run (host : Host W Err capiE)
    (registrar : FlutterDesktopPluginRegistrarRef) (w : W) :
  run host (Slip39DartPluginCApiRegisterWithRegistrar registrar) w =
  match host _ GetInstance w with
  | Failing err w1 => ([Invoke GetInstance], HostFailed err w1)
  | Answered manager w1 =>
      match host _ (GetRegistrar manager registrar) w1 with
      | Failing err w2 =>
          ([Invoke GetInstance; Invoke (GetRegistrar manager registrar)],
           HostFailed err w2)
      | Answered typed w2 =>
          ([Invoke GetInstance; Invoke (GetRegistrar manager registrar);
            Invoke (RegisterWithRegistrar typed)],
           answer_outcome (host _ (RegisterWithRegistrar typed) w2))
      end
  end.
Proof.
  unfold Slip39DartPluginCApiRegisterWithRegistrar; simpl.
  destruct (host _ GetInstance w) as [manager w1 | err w1]; simpl; [| done].
  destruct (host _ (GetRegistrar manager registrar) w1) as [typed w2 | err w2];
    simpl; [| done].
  by destruct (host _ (RegisterWithRegistrar typed) w2) as [[] w3 | err w3].
Qed.

Lemma capi_straight_line (registrar : FlutterDesktopPluginRegistrarRef) :
  straight_line 3 (Slip39DartPluginCApiRegisterWithRegistrar registrar).
Proof. by intros manager typed []. Qed.

(** C1: for every registrar reference and every host, when the manager
    singleton is obtained ([GetInstance]) and answers the lookup
    ([GetRegistrar] with that very reference), the entry point makes exactly
    three calls: [GetInstance], [GetRegistrar] on the instance obtained with
    the reference it was given, and [RegisterWithRegistrar] with the typed
    registrar the lookup returned; it ends as that last call ends. *)
Theorem capi_looks_up_and_registers (host : Host W Err capiE)
    (registrar : FlutterDesktopPluginRegistrarRef) (w w1 w2 : W)
    (manager : PluginRegistrarManager_ptr)
    (typed : PluginRegistrarWindows_ptr) :
  host _ GetInstance w = Answered manager w1 ->
  host _ (GetRegistrar manager registrar) w1 = Answered typed w2 ->
  run host (Slip39DartPluginCApiRegisterWithRegistrar registrar) w =
    ([Invoke GetInstance;
      Invoke (GetRegistrar manager registrar);
      Invoke (RegisterWithRegistrar typed)],
     answer_outcome (host _ (RegisterWithRegistrar typed) w2)).
Proof. intros H1 H2. by rewrite capi_run, H1, H2. Qed.

(** C5: for every registrar reference, the null one included, and every
    host, the entry point has no path of its own besides the chain of three
    calls.  It calls the host first, without looking at the reference, and
    forwards the reference as it is; it forwards whatever typed registrar the
    lookup returned, unchecked, to the registration; it ends early only where
    a host call failed, with that failure; it never throws on its own; and
    when it returns, it returns nothing ([tt]). *)
Theorem capi_no_error_path_of_its_own (host : Host W Err capiE)
    (registrar : FlutterDesktopPluginRegistrarRef) (w : W) :
  (exists rest,
      trace_of host (Slip39DartPluginCApiRegisterWithRegistrar registrar) w
      = Invoke GetInstance :: rest
      /\ forall manager w1, host _ GetInstance w = Answered manager w1 ->
           exists rest', rest = Invoke (GetRegistrar manager registrar) :: rest')
  /\ (forall what w',
      outcome_of host (Slip39DartPluginCApiRegisterWithRegistrar registrar) w
      <> Thrown what w')
  /\ (forall err w',
      outcome_of host (Slip39DartPluginCApiRegisterWithRegistrar registrar) w
      = HostFailed err w' ->
      exists pre X (e : capiE X) w0,
        trace_of host (Slip39DartPluginCApiRegisterWithRegistrar registrar) w
        = pre ++ [Invoke e]
        /\ host X e w0 = Failing err w')
  /\ (forall x w',
      outcome_of host (Slip39DartPluginCApiRegisterWithRegistrar registrar) w
      = Returned x w' -> x = tt)
  /\ (forall err w1,
      host _ GetInstance w = Failing err w1 ->
      run host (Slip39DartPluginCApiRegisterWithRegistrar registrar) w
      = ([Invoke GetInstance], HostFailed err w1))
  /\ (forall manager w1 err w2,
      host _ GetInstance w = Answered manager w1 ->
      host _ (GetRegistrar manager registrar) w1 = Failing err w2 ->
      run host (Slip39DartPluginCApiRegisterWithRegistrar registrar) w
      = ([Invoke GetInstance; Invoke (GetRegistrar manager registrar)],
         HostFailed err w2))
  /\ (forall manager w1 typed w2,
      host _ GetInstance w = Answered manager w1 ->
      host _ (GetRegistrar manager registrar) w1 = Answered typed w2 ->
      run host (Slip39DartPluginCApiRegisterWithRegistrar registrar) w
      = ([Invoke GetInstance; Invoke (GetRegistrar manager registrar);
          Invoke (RegisterWithRegistrar typed)],
         answer_outcome (host _ (RegisterWithRegistrar typed) w2))).
Proof.
  unfold trace_of, outcome_of. repeat split.
  - rewrite capi_run.
    destruct (host _ GetInstance w) as [manager w1 | err w1]; simpl.
    + destruct (host _ (GetRegistrar manager registrar) w1); simpl;
        eexists; (split; [reflexivity |]); intros m' w1' [= <- <-]; by eexists.
    + eexists; split; [reflexivity | done].
  - intros what w'. rewrite capi_run.
    destruct (host _ GetInstance w) as [manager w1 | err w1]; simpl; [| done].
    destruct (host _ (GetRegistrar manager registrar) w1) as [typed w2 | ];
      simpl; [| done].
    by destruct (host _ (RegisterWithRegistrar typed) w2).
  - intros err w'. apply run_host_failed_origin.
  - by intros [] w' _.
  - intros err w1 H1. by rewrite capi_run, H1.
  - intros manager w1 err w2 H1 H2. by rewrite capi_run, H1, H2.
  - intros manager w1 typed w2 H1 H2. by rewrite capi_run, H1, H2.
Qed.

(** C6: for every registrar reference and every host, all that happens to
    the state happens in the one chain of framework calls.  The state after
    the entry point is the state the last call of the chain left; the chain is
    made once (at most one lookup, at most one registration, at most three
    calls); the only registrar reference in the calls is the argument itself,
    and the only typed registrar is the one the lookup returned; so whatever
    can be observed of the state that no framework call changes is the same
    after the entry point as before it. *)
Theorem capi_frame {X : Type} (host : Host W Err capiE) (obs : W -> X)
    (registrar : FlutterDesktopPluginRegistrarRef) (w : W) :
  (forall Y (e : capiE Y) w0, obs (answer_world (host Y e w0)) = obs w0) ->
  obs (world_after
         (outcome_of host (Slip39DartPluginCApiRegisterWithRegistrar registrar) w))
  = obs w
  /\ (forall i r,
      In i (trace_of host (Slip39DartPluginCApiRegisterWithRegistrar registrar) w) ->
      carried_ref i = Some r -> r = registrar)
  /\ (forall i typed,
      In i (trace_of host (Slip39DartPluginCApiRegisterWithRegistrar registrar) w) ->
      registered_with i = Some typed ->
      exists manager w1 w2,
        host _ GetInstance w = Answered manager w1
        /\ host _ (GetRegistrar manager registrar) w1 = Answered typed w2)
  /\ (length (trace_of host (Slip39DartPluginCApiRegisterWithRegistrar registrar) w)
      <= 3)%nat
  /\ (length (omap carried_ref
         (trace_of host (Slip39DartPluginCApiRegisterWithRegistrar registrar) w))
      <= 1)%nat
  /\ (count is_RegisterWithRegistrar
        (trace_of host (Slip39DartPluginCApiRegisterWithRegistrar registrar) w)
      <= 1)%nat
  /\ (forall err w1,
      host _ GetInstance w = Failing err w1 ->
      world_after
        (outcome_of host (Slip39DartPluginCApiRegisterWithRegistrar registrar) w)
      = w1)
  /\ (forall manager w1 err w2,
      host _ GetInstance w = Answered manager w1 ->
      host _ (GetRegistrar manager registrar) w1 = Failing err w2 ->
      world_after
        (outcome_of host (Slip39DartPluginCApiRegisterWithRegistrar registrar) w)
      = w2)
  /\ (forall manager w1 typed w2,
      host _ GetInstance w = Answered manager w1 ->
      host _ (GetRegistrar manager registrar) w1 = Answered typed w2 ->
      world_after
        (outcome_of host (Slip39DartPluginCApiRegisterWithRegistrar registrar) w)
      = answer_world (host _ (RegisterWithRegistrar typed) w2)).
Proof.
  intros Hobs. split; [by apply run_frame |].
  unfold trace_of, outcome_of. rewrite capi_run.
  destruct (host _ GetInstance w) as [manager w1 | err w1]; simpl.
  - destruct (host _ (GetRegistrar manager registrar) w1) as [typed w2 | err w2]
      eqn:Hlookup; simpl.
    + repeat split; try (unfold count; simpl; lia); try done.
      * intros i r [<- | [<- | [<- | []]]]; simpl; congruence.
      * intros i typed' [<- | [<- | [<- | []]]]; simpl; try discriminate.
        intros [= <-]. by exists manager, w1, w2.
      * intros manager' w1' err' w2' [= <- <-]. rewrite Hlookup. discriminate.
      * intros manager' w1' typed' w2' [= <- <-]. rewrite Hlookup.
        intros [= <- <-].
        by destruct (host _ (RegisterWithRegistrar typed) w2).
    + repeat split; try (unfold count; simpl; lia); try done.
      * intros i r [<- | [<- | []]]; simpl; congruence.
      * intros i typed' [<- | [<- | []]]; simpl; discriminate.
      * intros manager' w1' err' w2' [= <- <-]. rewrite Hlookup.
        by intros [= <- <-].
      * intros manager' w1' typed' w2' [= <- <-]. rewrite Hlookup. discriminate.
  - repeat split; try (unfold count; simpl; lia); try done.
    + intros i r [<- | []]; simpl; congruence.
    + intros i typed' [<- | []]; simpl; discriminate.
    + by intros err' w1' [= <- <-].
Qed.

(** C7: the entry point is a straight line of three calls; for every
    registrar reference, against every host whose calls come back, it has an
    execution, and every execution ends after at most three calls without an
    exception of its own. *)
Theorem capi_terminates (H : HostRel W Err capiE)
    (registrar : FlutterDesktopPluginRegistrarRef) (w : W) :
  responsive H ->
  straight_line 3 (Slip39DartPluginCApiRegisterWithRegistrar registrar)
  /\ (exists t o,
        exec H (Slip39DartPluginCApiRegisterWithRegistrar registrar) w t o)
  /\ (forall t o,
        exec H (Slip39DartPluginCApiRegisterWithRegistrar registrar) w t o ->
        (length t <= 3)%nat
        /\ (returned o = true -> length t = 3%nat)
        /\ forall what w', o <> Thrown what w').
Proof.
  intros Hresp. split; [apply capi_straight_line |]. split.
  - by apply exec_progress.
  - intros t o. apply straight_line_exec, capi_straight_line.
Qed.

(** C8: for every host and registrar reference, two calls of the entry point
    with the same reference make the whole sequence twice, each call in the
    state the one before it left: when the host answers the first instance,
    lookup and registration, and the second instance and lookup, the calls
    made are instance, lookup of the reference, registration, and again
    instance, lookup of the same reference, registration, whatever typed
    registrar the second lookup returns (the same as the first or another);
    the run ends as the second registration ends. *)
Theorem capi_twice_registers_twice (host : Host W Err capiE)
    (registrar : FlutterDesktopPluginRegistrarRef) (w w1 w2 w3 w4 w5 : W)
    (m1 m2 : PluginRegistrarManager_ptr) (p1 p2 : PluginRegistrarWindows_ptr) :
  host _ GetInstance w = Answered m1 w1 ->
  host _ (GetRegistrar m1 registrar) w1 = Answered p1 w2 ->
  host _ (RegisterWithRegistrar p1) w2 = Answered tt w3 ->
  host _ GetInstance w3 = Answered m2 w4 ->
  host _ (GetRegistrar m2 registrar) w4 = Answered p2 w5 ->
  run host (register_twice registrar) w =
    ([Invoke GetInstance; Invoke (GetRegistrar m1 registrar);
      Invoke (RegisterWithRegistrar p1);
      Invoke GetInstance; Invoke (GetRegistrar m2 registrar);
      Invoke (RegisterWithRegistrar p2)],
     answer_outcome (host _ (RegisterWithRegistrar p2) w5))
  /\ count is_RegisterWithRegistrar (trace_of host (register_twice registrar) w)
     = 2%nat
  /\ count (is_GetRegistrar_of registrar)
       (trace_of host (register_twice registrar) w) = 2%nat.
Proof.
  intros H1 H2 H3 H4 H5.
  assert (run host (register_twice registrar) w =
    ([Invoke GetInstance; Invoke (GetRegistrar m1 registrar);
      Invoke (RegisterWithRegistrar p1);
      Invoke GetInstance; Invoke (GetRegistrar m2 registrar);
      Invoke (RegisterWithRegistrar p2)],
     answer_outcome (host _ (RegisterWithRegistrar p2) w5))) as Hrun.
  { unfold register_twice, mbind, Prog_bind.
    rewrite run_bind, capi_run, H1, H2, H3; simpl.
    rewrite H4; simpl. rewrite H5; simpl.
    by destruct (host _ (RegisterWithRegistrar p2) w5) as [[] w6 | ]. }
  split; [done |]. unfold trace_of. rewrite Hrun.
  unfold count; simpl. by rewrite !bool_decide_eq_true_2.
Qed.

(** C10: for every registrar reference and every host whose answer to a call
    is determined by the call and the state it is made in, two executions of
    the entry point from the same state make the same calls in the same order
    and end the same way, in the same state. *)
Theorem capi_deterministic (H : HostRel W Err capiE)
    (registrar : FlutterDesktopPluginRegistrarRef) (w : W)
    (t1 t2 : list (Invocation capiE)) (o1 o2 : Outcome W Err unit) :
  deterministic H ->
  exec H (Slip39DartPluginCApiRegisterWithRegistrar registrar) w t1 o1 ->
  exec H (Slip39DartPluginCApiRegisterWithRegistrar registrar) w t2 o2 ->
  t1 = t2 /\ o1 = o2.
Proof. intros Hdet. by apply exec_deterministic. Qed.

End CApi.

(** ** The entry point against the test double *)

Lemma capi_looks_up_and_registers_witness :
  run TestHost.host
      (Slip39DartPluginCApiRegisterWithRegistrar (RegistrarRef 100))
      TestHost.boot
  = ([Invoke GetInstance;
      Invoke (GetRegistrar TestHost.the_manager (RegistrarRef 100));
      Invoke (RegisterWithRegistrar (WindowsRegistrarPtr 4096))],
     answer_outcome
       (TestHost.host _ (RegisterWithRegistrar (WindowsRegistrarPtr 4096))
          (answer_world
             (TestHost.get_registrar (RegistrarRef 100) TestHost.boot)))).
Proof.
  apply (capi_looks_up_and_registers TestHost.host (RegistrarRef 100)
           TestHost.boot TestHost.boot
           (answer_world (TestHost.get_registrar (RegistrarRef 100) TestHost.boot))
           TestHost.the_manager (WindowsRegistrarPtr 4096));
    reflexivity.
Defined.

(** The null reference is forwarded like any other; the test double refuses
    it, and the entry point ends with that refusal. *)
Example capi_null_registrar :
  run TestHost.host
      (Slip39DartPluginCApiRegisterWithRegistrar null_registrar) TestHost.boot
  = ([Invoke GetInstance;
      Invoke (GetRegistrar TestHost.the_manager null_registrar)],
     HostFailed TestHost.NullRegistrar TestHost.boot).
Proof. reflexivity. Qed.

Lemma test_host_keeps_unrelated :
  forall Y (e : capiE Y) (w0 : TestHost.World),
    TestHost.unrelated (answer_world (TestHost.host Y e w0))
    = TestHost.unrelated w0.
Proof.
  intros Y [| manager registrar | wrapper] w0; simpl; try reflexivity.
  unfold TestHost.get_registrar.
  destruct (registrar_addr registrar =? 0); [reflexivity |].
  by destruct (TestHost.registrars_ w0 !! registrar_addr registrar).
Qed.

Lemma capi_frame_witness :
  TestHost.unrelated
    (world_after
       (outcome_of TestHost.host
          (Slip39DartPluginCApiRegisterWithRegistrar (RegistrarRef 100))
          TestHost.boot))
  = 7
  /\ forall i r,
      In i (trace_of TestHost.host
              (Slip39DartPluginCApiRegisterWithRegistrar (RegistrarRef 100))
              TestHost.boot) ->
      carried_ref i = Some r -> r = RegistrarRef 100.
Proof.
  pose proof (capi_frame TestHost.host TestHost.unrelated (RegistrarRef 100)
                TestHost.boot test_host_keeps_unrelated) as Hframe.
  exact (conj (proj1 Hframe) (proj1 (proj2 Hframe))).
Defined.

Lemma graph_responsive {W Err : Type} {E : Type -> Type}
    (host : Host W Err E) : responsive (graph host).
Proof. intros X e w. by eexists. Qed.

Lemma graph_deterministic {W Err : Type} {E : Type -> Type}
    (host : Host W Err E) : deterministic (graph host).
Proof. intros X e w a1 a2 H1 H2. unfold graph in *. congruence. Qed.

Lemma capi_terminates_witness :
  straight_line 3 (Slip39DartPluginCApiRegisterWithRegistrar (RegistrarRef 100))
  /\ (exists t o,
        exec (graph TestHost.host)
          (Slip39DartPluginCApiRegisterWithRegistrar (RegistrarRef 100))
          TestHost.boot t o)
  /\ (forall t o,
        exec (graph TestHost.host)
          (Slip39DartPluginCApiRegisterWithRegistrar (RegistrarRef 100))
          TestHost.boot t o ->
        (length t <= 3)%nat
        /\ (returned o = true -> length t = 3%nat)
        /\ forall what w', o <> Thrown what w').
Proof.
  apply (capi_terminates (graph TestHost.host) (RegistrarRef 100) TestHost.boot
           (graph_responsive TestHost.host)).
Defined.

Lemma capi_twice_registers_twice_witness :
  exists outcome,
    run TestHost.host (register_twice (RegistrarRef 100)) TestHost.boot =
      ([Invoke GetInstance;
        Invoke (GetRegistrar TestHost.the_manager (RegistrarRef 100));
        Invoke (RegisterWithRegistrar (WindowsRegistrarPtr 4096));
        Invoke GetInstance;
        Invoke (GetRegistrar TestHost.the_manager (RegistrarRef 100));
        Invoke (RegisterWithRegistrar (WindowsRegistrarPtr 4096))],
       outcome)
    /\ count is_RegisterWithRegistrar
         (trace_of TestHost.host (register_twice (RegistrarRef 100))
            TestHost.boot)
       = 2%nat
    /\ count (is_GetRegistrar_of (RegistrarRef 100))
         (trace_of TestHost.host (register_twice (RegistrarRef 100))
            TestHost.boot)
       = 2%nat.
Proof.
  eexists.
  eapply (capi_twice_registers_twice TestHost.host (RegistrarRef 100)
            TestHost.boot); reflexivity.
Defined.

(** The test double hands out the same wrapper both times, and is asked to
    register on it twice: nothing in the entry point stops the second
    registration. *)
Example capi_twice_same_wrapper :
  TestHost.registered
    (world_after
       (outcome_of TestHost.host (register_twice (RegistrarRef 100))
          TestHost.boot))
  = [WindowsRegistrarPtr 4096; WindowsRegistrarPtr 4096].
Proof. reflexivity. Qed.

Lemma capi_deterministic_witness :
  [Invoke GetInstance;
   Invoke (GetRegistrar TestHost.the_manager (RegistrarRef 100));
   Invoke (RegisterWithRegistrar (WindowsRegistrarPtr 4096))]
  = trace_of TestHost.host
      (Slip39DartPluginCApiRegisterWithRegistrar (RegistrarRef 100))
      TestHost.boot
  /\ answer_outcome
       (TestHost.host _ (RegisterWithRegistrar (WindowsRegistrarPtr 4096))
          (answer_world
             (TestHost.get_registrar (RegistrarRef 100) TestHost.boot)))
     = outcome_of TestHost.host
         (Slip39DartPluginCApiRegisterWithRegistrar (RegistrarRef 100))
         TestHost.boot.
Proof.
  apply (capi_deterministic (graph TestHost.host) (RegistrarRef 100)
           TestHost.boot _ _ _ _ (graph_deterministic TestHost.host)).
  - apply exec_graph_run. reflexivity.
  - apply exec_graph_run. reflexivity.
Defined.

(* ===================================================================== *)
(** * The plugin class cannot be copied                                  *)
(* ===================================================================== *)

Section NoCopy.

Import Cxx.

(** The operations the compiler accepts on a [Slip39DartPlugin]. *)
Lemma plugin_accepted_ops (op : Op) :
  accepted Slip39DartPlugin_class op = true ->
  op = Construct \/ exists obj, op = Destroy obj.
Proof.
  destruct op; intros Hacc; try (by vm_compute in Hacc).
  - by left.
  - right. by eexists.
Qed.

Lemma plugin_step_accepted (op : Op) (h h' : Heap) :
  step Slip39DartPlugin_class op h = Some h' ->
  accepted Slip39DartPlugin_class op = true.
Proof. unfold step. by destruct (accepted Slip39DartPlugin_class op). Qed.

(** One step keeps every live object pristine. *)
Lemma plugin_step_pristine (op : Op) (h h' : Heap) :
  (forall obj inst, live h !! obj = Some inst -> pristine inst) ->
  step Slip39DartPlugin_class op h = Some h' ->
  forall obj inst, live h' !! obj = Some inst -> pristine inst.
Proof.
  intros Hinv Hstep.
  destruct (plugin_accepted_ops op (plugin_step_accepted op h h' Hstep))
    as [-> | [victim ->]]; unfold step in Hstep; simpl in Hstep.
  - injection Hstep as <-. intros obj inst. unfold allocate; simpl.
    destruct (decide (next_obj h = obj)) as [-> | Hne].
    + rewrite lookup_insert_eq. by intros [= <-].
    + rewrite lookup_insert_ne by done. apply Hinv.
  - destruct (live h !! victim); [| discriminate].
    injection Hstep as <-. intros obj inst; simpl.
    destruct (decide (victim = obj)) as [-> | Hne].
    + by rewrite lookup_delete_eq.
    + rewrite lookup_delete_ne by done. apply Hinv.
Qed.

Lemma plugin_steps_pristine (ops : list Op) (h h' : Heap) :
  (forall obj inst, live h !! obj = Some inst -> pristine inst) ->
  steps Slip39DartPlugin_class ops h = Some h' ->
  (forall obj inst, live h' !! obj = Some inst -> pristine inst)
  /\ (forall op, In op ops -> op = Construct \/ exists obj, op = Destroy obj).
Proof.
  revert h; induction ops as [| op ops IH]; intros h Hinv; simpl.
  - intros [= <-]. split; [done | by intros op []].
  - destruct (step Slip39DartPlugin_class op h) as [h1 |] eqn:Hstep;
      [| discriminate].
    intros Hsteps.
    destruct (IH h1 (plugin_step_pristine op h h1 Hinv Hstep) Hsteps)
      as [Hlive Hops].
    split; [done |]. intros op' [<- | Hin]; [| by apply Hops].
    by apply plugin_accepted_ops, (plugin_step_accepted _ h h1).
Qed.

(** C9: whatever sequence of operations the compiler accepts on
    [Slip39DartPlugin] objects, starting with none: every live object was made
    by the default constructor and has never been assigned from another
    object, and the sequence contains no copy (or move) construction or
    assignment at all, only constructions and destructions. *)
Theorem plugin_instances_never_duplicated (ops : list Op) (h : Heap) :
  steps Slip39DartPlugin_class ops empty_heap = Some h ->
  (forall obj inst, live h !! obj = Some inst -> pristine inst)
  /\ (forall op, In op ops -> op = Construct \/ exists obj, op = Destroy obj).
Proof.
  apply plugin_steps_pristine. intros obj inst; simpl.
  by rewrite lookup_empty.
Qed.

(** The model does not forbid copies by itself: a class that leaves copying
    to the language gets a second object that is not pristine. *)
Example copyable_class_is_duplicated :
  exists h inst,
    steps copyable_class [Construct; CopyConstruct 1%positive] empty_heap = Some h
    /\ live h !! 2%positive = Some inst
    /\ origin inst = FromObject 1%positive.
Proof. eexists _, _. split; [reflexivity |]. split; reflexivity. Qed.

(** Every attempt to copy or move a plugin is rejected. *)
Example plugin_copy_rejected :
  steps Slip39DartPlugin_class [Construct; CopyConstruct 1%positive] empty_heap = None
  /\ steps Slip39DartPlugin_class [Construct; MoveConstruct 1%positive] empty_heap = None
  /\ steps Slip39DartPlugin_class
       [Construct; Construct; CopyAssign 2%positive 1%positive] empty_heap = None
  /\ steps Slip39DartPlugin_class
       [Construct; Construct; MoveAssign 2%positive 1%positive] empty_heap = None.
Proof. repeat split; reflexivity. Qed.

End NoCopy.

Lemma plugin_instances_never_duplicated_witness :
  (forall obj inst,
      Cxx.live
        {| Cxx.live :=
             <[2%positive := Cxx.mkInstance Cxx.FromDefaultConstructor []]> ∅;
           Cxx.next_obj := 3%positive |} !! obj = Some inst ->
      Cxx.pristine inst)
  /\ (forall op,
        In op [Cxx.Construct; Cxx.Construct; Cxx.Destroy 1%positive] ->
        op = Cxx.Construct \/ exists obj, op = Cxx.Destroy obj).
Proof.
  apply (plugin_instances_never_duplicated
           [Cxx.Construct; Cxx.Construct; Cxx.Destroy 1%positive]).
  vm_compute. reflexivity.
Defined.

(* ===================================================================== *)
(** * The Windows registration path with the plugin linked in            *)
(* ===================================================================== *)

Section WindowsRegistration.

Context {W Err : Type}.

Lemma windows_registration_run (host : Host W Err windowsE)
    (registrar : FlutterDesktopPluginRegistrarRef) (w : W) :
  run host (windows_registration registrar) w =
  match host _ (inlE GetInstance) w with
  | Failing err w1 => ([Invoke (inlE GetInstance)], HostFailed err w1)
  | Answered manager w1 =>
      match host _ (inlE (GetRegistrar manager registrar)) w1 with
      | Failing err w2 =>
          ([Invoke (inlE GetInstance);
            Invoke (inlE (GetRegistrar manager registrar))],
           HostFailed err w2)
      | Answered typed w2 =>
          match host _ (inrE Slip39DartPlugin_new) w2 with
          | Failing err w3 =>
              ([Invoke (inlE GetInstance);
                Invoke (inlE (GetRegistrar manager registrar));
                Invoke (inrE Slip39DartPlugin_new)],
               HostFailed err w3)
          | Answered plugin w3 =>
              ([Invoke (inlE GetInstance);
                Invoke (inlE (GetRegistrar manager registrar));
                Invoke (inrE Slip39DartPlugin_new);
                Invoke (inrE (BindMethodChannel typed plugin))],
               answer_outcome (host _ (inrE (BindMethodChannel typed plugin)) w3))
          end
      end
  end.
Proof.
  unfold windows_registration, Slip39DartPluginCApiRegisterWithRegistrar; simpl.
  destruct (host _ (inlE GetInstance) w) as [manager w1 | ]; simpl; [| done].
  destruct (host _ (inlE (GetRegistrar manager registrar)) w1)
    as [typed w2 | ]; simpl; [| done].
  destruct (host _ (inrE Slip39DartPlugin_new) w2) as [plugin w3 | ];
    simpl; [| done].
  by destruct (host _ (inrE (BindMethodChannel typed plugin)) w3) as [[] w4 | ].
Qed.

(** C2: for every host and registrar reference the host takes as valid (it
    answers with the manager instance, answers the lookup of the reference
    with a typed registrar, and answers the construction with a plugin), one
    call of the Windows entry point makes exactly four calls: instance,
    lookup, one construction of a plugin, and one channel binding of that
    plugin on the typed registrar of the reference; it ends as the binding
    ends. *)
Theorem windows_registration_constructs_and_binds_once
    (host : Host W Err windowsE)
    (registrar : FlutterDesktopPluginRegistrarRef) (w w1 w2 w3 : W)
    (manager : PluginRegistrarManager_ptr)
    (typed : PluginRegistrarWindows_ptr) (plugin : Slip39DartPlugin_ptr) :
  host _ (inlE GetInstance) w = Answered manager w1 ->
  host _ (inlE (GetRegistrar manager registrar)) w1 = Answered typed w2 ->
  host _ (inrE Slip39DartPlugin_new) w2 = Answered plugin w3 ->
  run host (windows_registration registrar) w =
    ([Invoke (inlE GetInstance);
      Invoke (inlE (GetRegistrar manager registrar));
      Invoke (inrE Slip39DartPlugin_new);
      Invoke (inrE (BindMethodChannel typed plugin))],
     answer_outcome (host _ (inrE (BindMethodChannel typed plugin)) w3))
  /\ count is_construction (trace_of host (windows_registration registrar) w)
     = 1%nat
  /\ count is_channel_binding (trace_of host (windows_registration registrar) w)
     = 1%nat.
Proof.
  intros H1 H2 H3. unfold trace_of.
  by rewrite windows_registration_run, H1, H2, H3.
Qed.

End WindowsRegistration.

Lemma windows_registration_constructs_and_binds_once_witness :
  exists outcome,
    run TestWindows.host (windows_registration (RegistrarRef 100))
      TestWindows.boot =
      ([Invoke (inlE GetInstance);
        Invoke (inlE (GetRegistrar TestHost.the_manager (RegistrarRef 100)));
        Invoke (inrE Slip39DartPlugin_new);
        Invoke (inrE (BindMethodChannel (WindowsRegistrarPtr 4096)
                        (PluginPtr 8192)))],
       outcome)
    /\ count is_construction
         (trace_of TestWindows.host (windows_registration (RegistrarRef 100))
            TestWindows.boot) = 1%nat
    /\ count is_channel_binding
         (trace_of TestWindows.host (windows_registration (RegistrarRef 100))
            TestWindows.boot) = 1%nat.
Proof.
  eexists.
  eapply (windows_registration_constructs_and_binds_once TestWindows.host
            (RegistrarRef 100) TestWindows.boot); reflexivity.
Defined.

(** On the test double the binding is recorded on the wrapper of the
    reference, with the plugin that was made. *)
Example windows_registration_binding :
  TestWindows.bindings
    (world_after
       (outcome_of TestWindows.host (windows_registration (RegistrarRef 100))
          TestWindows.boot))
  = [(WindowsRegistrarPtr 4096, PluginPtr 8192)].
Proof. reflexivity. Qed.

(* ===================================================================== *)
(** * The method-call handler                                            *)
(* ===================================================================== *)

Section Handler.

Context {W Err : Type}.


End Handler.

(** On the test double a known method ends in one success on the sink, an
    unknown one in one error. *)
Example handle_method_call_known :
  world_after
    (outcome_of TestHandler.host
       (HandleMethodCall TestHandler.domain TestHandler.the_call
          TestHandler.the_sink) [])
  = [(TestHandler.the_sink,
      TestHandler.SignalSuccess (EncString "Windows 10+"))].
Proof. reflexivity. Qed.

Example handle_method_call_unknown :
  world_after
    (outcome_of TestHandler.host
       (HandleMethodCall TestHandler.domain (mkMethodCall "split" EncNull)
          TestHandler.the_sink) [])
  = [(TestHandler.the_sink,
      TestHandler.SignalError "UNKNOWN_METHOD" "split")].
Proof. reflexivity. Qed.

(* ===================================================================== *)
(** * The Linux registration function                                    *)
(* ===================================================================== *)

Lemma count_app {A : Type} (f : A -> bool) (l1 l2 : list A) :
  count f (l1 ++ l2) = (count f l1 + count f l2)%nat.
Proof. unfold count. by rewrite List.filter_app, length_app. Qed.

Section LinuxRegistration.

Context {W Err : Type}.

(** The type-identification function registers the type when the static is
    still empty, and not otherwise; either way the static is set after it. *)
Lemma get_type_run (host : Host W Err linuxE) (statics : Statics) (w : W) :
  run host (slip39_dart_plugin_get_type statics) w =
  match statics with
  | Some type => ([], Returned (type, Some type) w)
  | None =>
      match host _ (TypeRegister plugin_type_name) w with
      | Answered type w' =>
          ([Invoke (TypeRegister plugin_type_name)],
           Returned (type, Some type) w')
      | Failing err w' =>
          ([Invoke (TypeRegister plugin_type_name)], HostFailed err w')
      end
  end.
Proof.
  destruct statics as [type |]; simpl; [done |].
  by destruct (host _ (TypeRegister plugin_type_name) w).
Qed.

(** C4: for every host that works with the registrar (it answers the calls
    that carry it and the calls that carry none) and every state of the
    function-local static that agrees with the registrations made so far, the
    Linux registration function returns, and afterwards the plugin type has
    been registered exactly once, the static agreeing with that. *)
Theorem linux_registration_registers_type_once (host : Host W Err linuxE)
    (registrar : FlPluginRegistrar_ptr) (statics : Statics)
    (past : list (Invocation linuxE)) (w : W) :
  valid_registrar host registrar ->
  statics_consistent statics past ->
  exists statics' w',
    outcome_of host
      (slip39_dart_plugin_register_with_registrar registrar statics) w
    = Returned (tt, statics') w'
    /\ count is_type_registration
         (past ++ trace_of host
            (slip39_dart_plugin_register_with_registrar registrar statics) w)
       = 1%nat
    /\ statics_consistent statics'
         (past ++ trace_of host
            (slip39_dart_plugin_register_with_registrar registrar statics) w).
Proof.
  intros Hvalid Hpast.
  unfold outcome_of, trace_of, slip39_dart_plugin_register_with_registrar,
    mbind, Prog_bind.
  rewrite run_bind, get_type_run.
  destruct statics as [type |]; simpl in *.
  - destruct (Hvalid _ (ObjectNew type) w (or_introl eq_refl))
      as (plugin & w1 & ->); simpl.
    destruct (Hvalid _ (SetMethodCallHandler registrar plugin) w1
                (or_intror eq_refl)) as ([] & w2 & ->); simpl.
    exists (Some type), w2. unfold statics_consistent.
    rewrite !count_app, Hpast. by unfold count.
  - destruct (Hvalid _ (TypeRegister plugin_type_name) w (or_introl eq_refl))
      as (type & w0 & ->); simpl.
    destruct (Hvalid _ (ObjectNew type) w0 (or_introl eq_refl))
      as (plugin & w1 & ->); simpl.
    destruct (Hvalid _ (SetMethodCallHandler registrar plugin) w1
                (or_intror eq_refl)) as ([] & w2 & ->); simpl.
    exists (Some type), w2. unfold statics_consistent.
    rewrite !count_app, Hpast. by unfold count.
Qed.

End LinuxRegistration.

Lemma test_linux_valid_registrar :
  valid_registrar TestLinux.host TestLinux.the_registrar.
Proof.
  intros X [name | type | registrar plugin] w [Hc | Hc]; simpl in *;
    try discriminate; try (by eexists _, _).
  injection Hc as ->. by eexists _, _.
Qed.

Lemma linux_registration_registers_type_once_witness :
  exists statics' w',
    outcome_of TestLinux.host
      (slip39_dart_plugin_register_with_registrar TestLinux.the_registrar None)
      TestLinux.boot
    = Returned (tt, statics') w'
    /\ count is_type_registration
         ([] ++ trace_of TestLinux.host
            (slip39_dart_plugin_register_with_registrar
               TestLinux.the_registrar None) TestLinux.boot)
       = 1%nat
    /\ statics_consistent statics'
         ([] ++ trace_of TestLinux.host
            (slip39_dart_plugin_register_with_registrar
               TestLinux.the_registrar None) TestLinux.boot).
Proof.
  apply (linux_registration_registers_type_once TestLinux.host
           TestLinux.the_registrar None [] TestLinux.boot
           test_linux_valid_registrar).
  reflexivity.
Defined.

(** Two registrations in a row on the test double: the type registry holds
    the plugin type once. *)
Example linux_registration_twice :
  TestLinux.type_registry
    (world_after
       (outcome_of TestLinux.host
          ('(_, statics) ← slip39_dart_plugin_register_with_registrar
                             TestLinux.the_registrar None;
           slip39_dart_plugin_register_with_registrar
             TestLinux.the_registrar statics)
          TestLinux.boot))
  = [plugin_type_name].
Proof. reflexivity. Qed.

(* ===================================================================== *)
(** * More on the Windows entry point                                    *)
(* ===================================================================== *)

Section CApiMore.

Context {W Err : Type}.

(** X1: the plugin is asked to register at most once per call, and only with
    a typed registrar that the lookup of the given reference returned: when
    [GetInstance] or [GetRegistrar] fails, no registration is attempted. *)
Theorem capi_registers_only_after_lookup (host : Host W Err capiE)
    (registrar : FlutterDesktopPluginRegistrarRef) (w : W) :
  (count is_RegisterWithRegistrar
     (trace_of host (Slip39DartPluginCApiRegisterWithRegistrar registrar) w)
   <= 1)%nat
  /\ forall i typed,
      In i (trace_of host (Slip39DartPluginCApiRegisterWithRegistrar registrar) w) ->
      registered_with i = Some typed ->
      exists manager w1 w2,
        host _ GetInstance w = Answered manager w1
        /\ host _ (GetRegistrar manager registrar) w1 = Answered typed w2.
Proof.
  unfold trace_of. rewrite capi_run.
  destruct (host _ GetInstance w) as [manager w1 | err w1]; simpl.
  - destruct (host _ (GetRegistrar manager registrar) w1) as [typed w2 | err w2]
      eqn:Hlookup; simpl.
    + split; [unfold count; simpl; lia |].
      intros i typed' [<- | [<- | [<- | []]]]; simpl; try discriminate.
      intros [= <-]. by exists manager, w1, w2.
    + split; [unfold count; simpl; lia |].
      intros i typed' [<- | [<- | []]]; simpl; discriminate.
  - split; [unfold count; simpl; lia |].
    intros i typed' [<- | []]; simpl; discriminate.
Qed.

(** X2: the entry point never looks into the reference: two references that
    the host's lookup does not tell apart lead to the same registrations, the
    same outcome and the same final state. *)
Theorem capi_reference_is_opaque (host : Host W Err capiE)
    (r1 r2 : FlutterDesktopPluginRegistrarRef) (w : W) :
  (forall manager w0,
      host _ (GetRegistrar manager r1) w0 = host _ (GetRegistrar manager r2) w0) ->
  outcome_of host (Slip39DartPluginCApiRegisterWithRegistrar r1) w
  = outcome_of host (Slip39DartPluginCApiRegisterWithRegistrar r2) w
  /\ omap registered_with
       (trace_of host (Slip39DartPluginCApiRegisterWithRegistrar r1) w)
     = omap registered_with
         (trace_of host (Slip39DartPluginCApiRegisterWithRegistrar r2) w).
Proof.
  intros Hsame. unfold outcome_of, trace_of. rewrite !capi_run.
  destruct (host _ GetInstance w) as [manager w1 | err w1]; [| done].
  rewrite Hsame.
  by destruct (host _ (GetRegistrar manager r2) w1).
Qed.

Lemma register_each_cons (host : Host W Err capiE)
    (registrar : FlutterDesktopPluginRegistrarRef)
    (rest : list FlutterDesktopPluginRegistrarRef) (w : W) :
  run host (register_each (registrar :: rest)) w =
  match host _ GetInstance w with
  | Failing err w1 => ([Invoke GetInstance], HostFailed err w1)
  | Answered manager w1 =>
      match host _ (GetRegistrar manager registrar) w1 with
      | Failing err w2 =>
          ([Invoke GetInstance; Invoke (GetRegistrar manager registrar)],
           HostFailed err w2)
      | Answered typed w2 =>
          match host _ (RegisterWithRegistrar typed) w2 with
          | Failing err w3 =>
              ([Invoke GetInstance; Invoke (GetRegistrar manager registrar);
                Invoke (RegisterWithRegistrar typed)],
               HostFailed err w3)
          | Answered _ w3 =>
              (Invoke GetInstance :: Invoke (GetRegistrar manager registrar)
               :: Invoke (RegisterWithRegistrar typed)
               :: (run host (register_each rest) w3).1,
               (run host (register_each rest) w3).2)
          end
      end
  end.
Proof.
  change (register_each (registrar :: rest))
    with (bind (Slip39DartPluginCApiRegisterWithRegistrar registrar)
               (fun _ => register_each rest)).
  rewrite run_bind, capi_run.
  destruct (host _ GetInstance w) as [manager w1 | ]; simpl; [| done].
  destruct (host _ (GetRegistrar manager registrar) w1) as [typed w2 | ];
    simpl; [| done].
  by destruct (host _ (RegisterWithRegistrar typed) w2) as [[] w3 | ].
Qed.

(** X3: when the entry point is called for a list of references and every
    call returns, the calls made are one round per reference, in the order
    given: instance, lookup of that reference, and registration with the typed
    registrar that this very lookup returned, each in the state the call
    before it left.  So each reference has been looked up once and each lookup
    was followed by its registration: three calls per reference. *)
Theorem register_each_registers_each (host : Host W Err capiE)
    (registrars : list FlutterDesktopPluginRegistrarRef) (w : W) :
  returned (outcome_of host (register_each registrars) w) = true ->
  rounds_of host registrars w
    (trace_of host (register_each registrars) w)
    (world_after (outcome_of host (register_each registrars) w))
  /\ omap carried_ref (trace_of host (register_each registrars) w) = registrars
  /\ count is_RegisterWithRegistrar (trace_of host (register_each registrars) w)
     = length registrars
  /\ length (trace_of host (register_each registrars) w)
     = (3 * length registrars)%nat.
Proof.
  unfold outcome_of, trace_of.
  revert w; induction registrars as [| registrar rest IH]; intros w.
  - done.
  - rewrite register_each_cons.
    destruct (host _ GetInstance w) as [manager w1 | ] eqn:H1; simpl; [| done].
    destruct (host _ (GetRegistrar manager registrar) w1) as [typed w2 | ]
      eqn:H2; simpl; [| done].
    destruct (host _ (RegisterWithRegistrar typed) w2) as [[] w3 | ] eqn:H3;
      simpl; [| done].
    intros Hret. destruct (IH w3 Hret) as (Hrounds & Hrefs & Hcount & Hlen).
    split.
    { exists manager, w1, typed, w2, w3, (run host (register_each rest) w3).1.
      by rewrite H1. }
    unfold count in *; simpl.
    repeat split; [f_equal; exact Hrefs | lia | lia].
Qed.

(** X4: whatever the host does, the references looked up are a prefix of the
    references given: after a call of the entry point that fails, no later
    reference is looked up, and no reference is looked up twice or out of
    order. *)
Theorem register_each_stops_at_failure (host : Host W Err capiE)
    (registrars : list FlutterDesktopPluginRegistrarRef) (w : W) :
  omap carried_ref (trace_of host (register_each registrars) w)
    `prefix_of` registrars
  /\ (count is_RegisterWithRegistrar (trace_of host (register_each registrars) w)
      <= length (omap carried_ref (trace_of host (register_each registrars) w)))%nat.
Proof.
  unfold trace_of.
  revert w; induction registrars as [| registrar rest IH]; intros w.
  - done.
  - rewrite register_each_cons.
    destruct (host _ GetInstance w) as [manager w1 | ]; simpl;
      [| split; [apply prefix_nil | unfold count; simpl; lia]].
    destruct (host _ (GetRegistrar manager registrar) w1) as [typed w2 | ];
      simpl; [| split; [apply prefix_cons, prefix_nil | unfold count; simpl; lia]].
    destruct (host _ (RegisterWithRegistrar typed) w2) as [[] w3 | ]; simpl;
      [| split; [apply prefix_cons, prefix_nil | unfold count; simpl; lia]].
    destruct (IH w3) as [Hpre Hcount].
    split; [by apply prefix_cons |].
    unfold count, omap in *; simpl. lia.
Qed.

End CApiMore.

Lemma capi_reference_is_opaque_witness :
  outcome_of TestFlat.host
    (Slip39DartPluginCApiRegisterWithRegistrar (RegistrarRef 100)) 0%nat
  = outcome_of TestFlat.host
      (Slip39DartPluginCApiRegisterWithRegistrar (RegistrarRef 200)) 0%nat
  /\ omap registered_with
       (trace_of TestFlat.host
          (Slip39DartPluginCApiRegisterWithRegistrar (RegistrarRef 100)) 0%nat)
     = omap registered_with
         (trace_of TestFlat.host
            (Slip39DartPluginCApiRegisterWithRegistrar (RegistrarRef 200)) 0%nat).
Proof.
  apply (capi_reference_is_opaque TestFlat.host (RegistrarRef 100)
           (RegistrarRef 200) 0%nat).
  reflexivity.
Defined.

Lemma register_each_registers_each_witness :
  rounds_of TestHost.host
    [RegistrarRef 100; RegistrarRef 200; RegistrarRef 100] TestHost.boot
    (trace_of TestHost.host
       (register_each [RegistrarRef 100; RegistrarRef 200; RegistrarRef 100])
       TestHost.boot)
    (world_after
       (outcome_of TestHost.host
          (register_each [RegistrarRef 100; RegistrarRef 200; RegistrarRef 100])
          TestHost.boot))
  /\ omap carried_ref
       (trace_of TestHost.host
          (register_each [RegistrarRef 100; RegistrarRef 200; RegistrarRef 100])
          TestHost.boot)
     = [RegistrarRef 100; RegistrarRef 200; RegistrarRef 100]
  /\ count is_RegisterWithRegistrar
       (trace_of TestHost.host
          (register_each [RegistrarRef 100; RegistrarRef 200; RegistrarRef 100])
          TestHost.boot)
     = length [RegistrarRef 100; RegistrarRef 200; RegistrarRef 100]
  /\ length
       (trace_of TestHost.host
          (register_each [RegistrarRef 100; RegistrarRef 200; RegistrarRef 100])
          TestHost.boot)
     = (3 * length [RegistrarRef 100; RegistrarRef 200; RegistrarRef 100])%nat.
Proof.
  apply (register_each_registers_each TestHost.host
           [RegistrarRef 100; RegistrarRef 200; RegistrarRef 100]
           TestHost.boot).
  reflexivity.
Defined.

(** With the null reference second in the list, the test double refuses it:
    the first reference is registered, the third is never looked up. *)
Example register_each_null_in_the_middle :
  omap carried_ref
    (trace_of TestHost.host
       (register_each [RegistrarRef 100; null_registrar; RegistrarRef 300])
       TestHost.boot)
  = [RegistrarRef 100; null_registrar]
  /\ TestHost.registered
       (world_after
          (outcome_of TestHost.host
             (register_each [RegistrarRef 100; null_registrar; RegistrarRef 300])
             TestHost.boot))
     = [WindowsRegistrarPtr 4096].
Proof. split; reflexivity. Qed.

(* ===================================================================== *)
(** * Counting the plugin objects                                        *)
(* ===================================================================== *)

Section Counting.

Import Cxx.

Lemma size_delete_live (m : gmap ObjId Instance) (obj : ObjId) :
  is_Some (m !! obj) -> S (size (delete obj m)) = size m.
Proof.
  intros [inst Hobj].
  rewrite <- (insert_delete_id m obj inst Hobj) at 2.
  by rewrite map_size_insert_None by apply lookup_delete_eq.
Qed.

Lemma plugin_step_count (op : Op) (h h' : Heap) :
  fresh_heap h ->
  step Slip39DartPlugin_class op h = Some h' ->
  fresh_heap h'
  /\ (size (live h') + count is_Destroy [op]
      = size (live h) + count is_Construct [op])%nat.
Proof.
  intros Hfresh Hstep.
  destruct (plugin_accepted_ops op (plugin_step_accepted op h h' Hstep))
    as [-> | [victim ->]]; unfold step in Hstep; simpl in Hstep.
  - injection Hstep as <-. unfold allocate, count, fresh_heap in *; simpl.
    split.
    + intros obj. destruct (decide (next_obj h = obj)) as [<- | Hne];
        [intros _; lia |].
      rewrite lookup_insert_ne by done. intros Hlive.
      specialize (Hfresh obj Hlive). lia.
    + rewrite map_size_insert_None; [lia |].
      destruct (live h !! next_obj h) eqn:Hnext; [| done].
      assert (next_obj h < next_obj h)%positive by (apply Hfresh; eauto). lia.
  - destruct (live h !! victim) eqn:Hvictim; [| discriminate].
    injection Hstep as <-. unfold count, fresh_heap in *; simpl. split.
    + intros obj. destruct (decide (victim = obj)) as [<- | Hne].
      * rewrite lookup_delete_eq. by intros [? ?].
      * rewrite lookup_delete_ne by done. apply Hfresh.
    + rewrite <- (size_delete_live (live h) victim) by eauto. lia.
Qed.

Lemma plugin_steps_count (ops : list Op) (h h' : Heap) :
  fresh_heap h ->
  steps Slip39DartPlugin_class ops h = Some h' ->
  fresh_heap h'
  /\ (size (live h') + count is_Destroy ops
      = size (live h) + count is_Construct ops)%nat.
Proof.
  revert h; induction ops as [| op ops IH]; intros h Hfresh; simpl.
  - intros [= <-]. split; [done |]. unfold count; simpl. lia.
  - destruct (step Slip39DartPlugin_class op h) as [h1 |] eqn:Hstep;
      [| discriminate].
    intros Hsteps.
    destruct (plugin_step_count op h h1 Hfresh Hstep) as [Hfresh1 Hone].
    destruct (IH h1 Hfresh1 Hsteps) as [Hfresh' Hrest].
    split; [done |].
    change (op :: ops) with ([op] ++ ops). rewrite !count_app. lia.
Qed.

(** X5: over every sequence of operations the compiler accepts on
    [Slip39DartPlugin] objects, starting with none, the number of live objects
    is the number of constructions less the number of destructions: nothing
    but the default constructor adds an object, nothing but the destructor
    removes one. *)
Theorem plugin_live_count (ops : list Op) (h : Heap) :
  steps Slip39DartPlugin_class ops empty_heap = Some h ->
  (size (live h) + count is_Destroy ops = count is_Construct ops)%nat.
Proof.
  intros Hsteps.
  destruct (plugin_steps_count ops empty_heap h) as [Hfresh Hcount];
    [| done |].
  - intros obj; simpl. rewrite lookup_empty. by intros [? ?].
  - simpl in Hcount. rewrite map_size_empty in Hcount. done.
Qed.

End Counting.

Lemma plugin_live_count_witness :
  (size (Cxx.live
           {| Cxx.live :=
                <[2%positive := Cxx.mkInstance Cxx.FromDefaultConstructor []]> ∅;
              Cxx.next_obj := 3%positive |})
   + count is_Destroy [Cxx.Construct; Cxx.Construct; Cxx.Destroy 1%positive]
   = count is_Construct [Cxx.Construct; Cxx.Construct; Cxx.Destroy 1%positive])%nat.
Proof.
  apply (plugin_live_count
           [Cxx.Construct; Cxx.Construct; Cxx.Destroy 1%positive]
           {| Cxx.live :=
                <[2%positive := Cxx.mkInstance Cxx.FromDefaultConstructor []]> ∅;
              Cxx.next_obj := 3%positive |}).
  vm_compute. reflexivity.
Defined.
